(** * web-scrobbler: the background [Extension] and the Google Play connector

    A shallow embedding of [src/core/background/extension.js] and of
    [src/connectors/google-play.js].

    The background script talks to collaborators that live in other modules
    (notifications, analytics, browser storage, the tab worker).  Every call
    made to one of them is recorded, in program order, in a trace of [Call]s;
    the mutable state of the extension object and of the storages it reads
    and writes is threaded explicitly; a JavaScript exception is an explicit
    outcome. *)

From Stdlib Require Import ZArith Bool List Lia.
From stdpp Require Import gmap strings list fin_maps.

Local Open Scope string_scope.
Local Open Scope Z_scope.

(** ** Songs, connectors and controllers, as the background script sees them *)

(** [song.flags]; the background script reads [isReplaying] only. *)
Record SongFlags := { isReplaying : bool }.

Record Song := {
  songArtist : string;
  songTrack : string;
  flags : SongFlags;
}.

(** [ctrl.getConnector()] is destructured for its [label]. *)
Record ConnectorEntry := { label : string }.

(** Modelled from the spec: the controller class is missing from the
    sources; these are the states of the playback state machine of
    spec 4.2. *)
Inductive Lifecycle :=
| Idle | NowPlaying | Submittable | Submitted | Unrecognized.

(** Modelled from the spec: an Item is terminal once it has been submitted;
    a reset leaves the machine without a current Item. *)
Definition isTerminal (l : Lifecycle) : bool :=
  match l with Submitted => true | _ => false end.

(** A controller: [ctrl.tabId], [ctrl.getCurrentSong()] (a song or [null]),
    [ctrl.getConnector()]. *)
Record Controller := {
  tabId : Z;
  currentSong : option Song;
  connector : ConnectorEntry;
  lifecycle : Lifecycle;
}.

Definition getCurrentSong (ctrl : Controller) : option Song := currentSong ctrl.
Definition getConnector (ctrl : Controller) : ConnectorEntry := connector ctrl.

(** ** Calls to collaborators *)

(** The two closures the background script hands out as click handlers:
    [() => { openTab(ctrl.tabId); }] captures the controller,
    [() => { browser.tabs.create({ url: authUrl }); }] captures the URL. *)
Inductive Callback :=
| OpenTabOf (ctrl : Controller)
| CreateTabAt (url : string).

Inductive Call :=
| GA_event (category action lbl : string)
| GA_pageview (path : string)
| Notifications_clearNowPlaying (song : Song)
| Notifications_showNowPlaying (song : Song) (onClick : Callback)
| Notifications_showSongNotRecognized (song : option Song) (onClick : Callback)
| Notifications_showAuthNotification (onClick : Callback)
| browser_tabs_create (url : string)
| openTab (tab : Z)
| console_log (n : Z)
| console_warn (msg : string)
| storage_debugLog
| ScrobbleService_bindAllScrobblers
| controllerEvent (ctrl : Controller) (event : Z).

(** What runs when the user clicks a notification. *)
Definition click (cb : Callback) : list Call :=
  match cb with
  | OpenTabOf ctrl => [openTab (tabId ctrl)]
  | CreateTabAt url => [browser_tabs_create url]
  end.

(** ** State *)

(** The fields of the [Extension] object ([isSessionActive], [extVersion]),
    the contents of the two browser storages it uses, and the controllers
    owned by its tab worker, keyed by tab id. *)
Record State := {
  isSessionActive : bool;
  extVersion : string;
  notificationData : gmap string Z;
  coreData : gmap string string;
  tabControllers : gmap Z Controller;
}.

Definition withSessionActive (s : State) : State :=
  {| isSessionActive := true;
     extVersion := extVersion s;
     notificationData := notificationData s;
     coreData := coreData s;
     tabControllers := tabControllers s |}.

Definition withNotificationData (d : gmap string Z) (s : State) : State :=
  {| isSessionActive := isSessionActive s;
     extVersion := extVersion s;
     notificationData := d;
     coreData := coreData s;
     tabControllers := tabControllers s |}.

Definition withCoreData (d : gmap string string) (s : State) : State :=
  {| isSessionActive := isSessionActive s;
     extVersion := extVersion s;
     notificationData := notificationData s;
     coreData := d;
     tabControllers := tabControllers s |}.

Definition withTabControllers (m : gmap Z Controller) (s : State) : State :=
  {| isSessionActive := isSessionActive s;
     extVersion := extVersion s;
     notificationData := notificationData s;
     coreData := coreData s;
     tabControllers := m |}.

(** ** The monad of background code: state, trace and exceptions *)

Inductive Exn := TypeError | NotificationsUnavailable.

Inductive Outcome (A : Type) :=
| Returned (a : A) (s : State) (calls : list Call)
| Thrown (e : Exn) (s : State) (calls : list Call).
Arguments Returned {A} a s calls.
Arguments Thrown {A} e s calls.

Definition M (A : Type) : Type := State -> Outcome A.

Definition ret {A} (a : A) : M A := fun s => Returned a s [].

Definition bind {A B} (m : M A) (k : A -> M B) : M B := fun s =>
  match m s with
  | Returned a s1 c1 =>
      match k a s1 with
      | Returned b s2 c2 => Returned b s2 (c1 ++ c2)
      | Thrown e s2 c2 => Thrown e s2 (c1 ++ c2)
      end
  | Thrown e s1 c1 => Thrown e s1 c1
  end.

Notation "'let!' x ':=' m 'in' k" := (bind m (fun x => k))
  (at level 10, x name, m at level 100, k at level 200).
Notation "m ';;' k" := (bind m (fun _ => k))
  (at level 100, k at level 200, right associativity).

Definition call (c : Call) : M unit := fun s => Returned tt s [c].
Definition throw {A} (e : Exn) : M A := fun s => Thrown e s [].
Definition get : M State := fun s => Returned s s [].
Definition put (s : State) : M unit := fun _ => Returned tt s [].

(** [try { m } catch (e) { h }] *)
Definition try_catch {A} (m : M A) (h : Exn -> M A) : M A := fun s =>
  match m s with
  | Returned a s1 c1 => Returned a s1 c1
  | Thrown e s1 c1 =>
      match h e s1 with
      | Returned a s2 c2 => Returned a s2 (c1 ++ c2)
      | Thrown e' s2 c2 => Thrown e' s2 (c1 ++ c2)
      end
  end.

Definition callsOf {A} (o : Outcome A) : list Call :=
  match o with Returned _ _ c => c | Thrown _ _ c => c end.

Definition stateOf {A} (o : Outcome A) : State :=
  match o with Returned _ s _ => s | Thrown _ s _ => s end.

Definition raised {A} (o : Outcome A) : bool :=
  match o with Returned _ _ _ => false | Thrown _ _ _ => true end.

(** [n] calls of [m] in a row. *)
Fixpoint repeatM (n : nat) (m : M unit) : M unit :=
  match n with
  | O => ret tt
  | S n' => m ;; repeatM n' m
  end.

(** ** connectors/google-play.js *)

Module GooglePlay.

Definition playerSelector := "#player".
Definition artistSelector := "#player-artist".
Definition trackSelector := "#currently-playing-title".
Definition albumSelector := ".player-album".

(** The page, as the connector's selectors see it: the text found under a
    selector, if any element matches. *)
Record Page := { textOf : gmap string string }.

(** [Connector.getArtist()] and [Connector.getTrack()] of the base
    connector read the text under [artistSelector] and [trackSelector];
    [None] is [null]. *)
Definition getArtist (p : Page) : option string := textOf p !! artistSelector.
Definition getTrack (p : Page) : option string := textOf p !! trackSelector.

Definition adPlaceholder := "Subscribe to go ad-free".

(** [Connector.isScrobblingAllowed = () =>
      Connector.getArtist() !== 'Subscribe to go ad-free'] *)
Definition isScrobblingAllowed (p : Page) : bool :=
  match getArtist p with
  | Some a => negb (String.eqb a adPlaceholder)
  | None => true
  end.

(** The eligibility policy in the words of the specification: a denylist
    of substrings, looked for in the artist and in the title. *)
Fixpoint spec_contains (needle hay : string) : bool :=
  String.prefix needle hay ||
  match hay with
  | EmptyString => false
  | String _ rest => spec_contains needle rest
  end.

Definition spec_denylist : list string := [adPlaceholder].

Definition spec_fieldDenylisted (field : option string) : bool :=
  match field with
  | Some txt => existsb (fun d => spec_contains d txt) spec_denylist
  | None => false
  end.

Definition spec_ineligible (p : Page) : bool :=
  spec_fieldDenylisted (getArtist p) || spec_fieldDenylisted (getTrack p).

Definition pageOf (artist track : string) : Page :=
  {| textOf := <[artistSelector := artist]> (<[trackSelector := track]> ∅) |}.

End GooglePlay.

(** ** core/background/extension.js *)

(** How many times to show auth notification. *)
Definition authNotificationDisplayCount : Z := 3.

(** What the collaborators answer during one run of [start]: whether the
    browser can show notifications ([Notifications.showAuthNotification]
    rejects when it cannot), the scrobblers that
    [ScrobbleService.bindAllScrobblers()] resolves to, and the absolute URL
    that [browser.runtime.getURL] gives for the accounts page. *)
Record Env := {
  notificationsAvailable : bool;
  boundScrobblers : list string;
  accountsUrl : string;
}.

(** [Notifications.showAuthNotification(onClick)] *)
Definition Notifications_showAuth (env : Env) (onClick : Callback) : M unit :=
  call (Notifications_showAuthNotification onClick) ;;
  if notificationsAvailable env then ret tt else throw NotificationsUnavailable.

(** [this.notificationStorage.get()] and [.set(data)] *)
Definition notificationStorage_get : M (gmap string Z) :=
  let! s := get in ret (notificationData s).

Definition notificationStorage_set (data : gmap string Z) : M unit :=
  let! s := get in put (withNotificationData data s).

(** [data.authDisplayCount || 0] *)
Definition authDisplayCountOf (data : gmap string Z) : Z :=
  default 0 (data !! "authDisplayCount").

Definition isAuthNotificationAllowed : M bool :=
  let! data := notificationStorage_get in
  let authDisplayCount := authDisplayCountOf data in
  ret (authDisplayCount <? authNotificationDisplayCount).

(** The counter is a JavaScript number; the integers of the model agree with
    it as long as it stays within the safe integers, which is the case for a
    counter that starts missing or between 0 and 3. *)
Definition updateAuthDisplayCount : M unit :=
  let! data := notificationStorage_get in
  let authDisplayCount := authDisplayCountOf data in
  notificationStorage_set (<["authDisplayCount" := authDisplayCount + 1]> data).

Definition showAuthNotification (env : Env) : M unit :=
  let! allowed := isAuthNotificationAllowed in
  if allowed then
    let authUrl := accountsUrl env in
    try_catch
      (Notifications_showAuth env (CreateTabAt authUrl))
      (fun _ => call (browser_tabs_create authUrl)) ;;
    updateAuthDisplayCount
  else ret tt.

Definition updateVersionInStorage : M unit :=
  let! s := get in
  let data := coreData s in
  put (withCoreData (<["appVersion" := extVersion s]> data) s) ;;
  call storage_debugLog.

Definition bindScrobblers (env : Env) : M bool :=
  call ScrobbleService_bindAllScrobblers ;;
  ret (negb (Nat.eqb (length (boundScrobblers env)) 0)).

(** [start], run until nothing of it is pending any more, with every
    promise it awaits resolving: the call of [showAuthNotification] is not
    awaited, so its body (which suspends at its first storage read) runs
    after the page view has been sent, and is still pending when the promise
    of [start] resolves.  What happens when other runs go on in the meantime
    is the subject of [resume] and [play] below. *)
Definition start (env : Env) : M unit :=
  updateVersionInStorage ;;
  let! bound := bindScrobblers env in
  (if negb bound then call (console_warn "No scrobblers are bound") else ret tt) ;;
  let! this := get in
  call (GA_pageview ("/background-loaded?version=" +:+ extVersion this)) ;;
  if negb bound then showAuthNotification env else ret tt.

(** Send a [pageview] event to GA to indicate this session is active.
    Do nothing if it's already marked as an active. *)
Definition setSessionActive : M unit :=
  let! this := get in
  if isSessionActive this then ret tt
  else
    put (withSessionActive this) ;;
    call (GA_pageview ("/background-injected?version=" +:+ extVersion this)).

(** [this.tabWorker.onConnectorActivated = ({ label }) => { ... }] *)
Definition onConnectorActivated (c : ConnectorEntry) : M unit :=
  call (GA_event "core" "inject" (label c)) ;;
  setSessionActive.

Section Background.

(** The four constants exported by [object/controller-event]; the module is
    not part of the sources at hand, so the numbers stay abstract. *)
Variables ControllerReset SongNowPlaying SongScrobbled SongUnrecognized : Z.

(** Called when a controller generates a new event.  A [switch] takes the
    first [case] that is strictly equal to the event; there is no
    [default].  Reading [song.flags] of a [null] song throws. *)
Definition processControllerEvent (ctrl : Controller) (event : Z) : M unit :=
  if event =? ControllerReset then
    let song := getCurrentSong ctrl in
    match song with
    | Some sg => call (Notifications_clearNowPlaying sg)
    | None => ret tt
    end
  else if event =? SongNowPlaying then
    let song := getCurrentSong ctrl in
    match song with
    | None => throw TypeError
    | Some sg =>
        if isReplaying (flags sg) then ret tt
        else call (Notifications_showNowPlaying sg (OpenTabOf ctrl))
    end
  else if event =? SongScrobbled then
    let lbl := label (getConnector ctrl) in
    call (GA_event "core" "scrobble" lbl)
  else if event =? SongUnrecognized then
    call (console_log 2222) ;;
    let song := getCurrentSong ctrl in
    call (Notifications_showSongNotRecognized song (OpenTabOf ctrl))
  else ret tt.

(** [this.tabWorker.onControllerEvent = (ctrl, event) => {
      this.processControllerEvent(ctrl, event); }]
    The delivery itself is recorded, then the handler runs. *)
Definition onControllerEvent (ctrl : Controller) (event : Z) : M unit :=
  call (controllerEvent ctrl event) ;;
  processControllerEvent ctrl event.

(** *** The tab worker *)

(** The payload of a message and the playback state machine that consumes it
    belong to [object/tab-worker] and the controller behind it; they are
    parameters here: [machine ctrl type data] is the controller after the
    message, with the lifecycle events it emitted, oldest first. *)
Variable Payload : Type.
Variable machine : Controller -> string -> Payload -> Controller * list Z.

(** Modelled from the spec: every lifecycle event emitted by a machine is
    broadcast to the listeners, in emission order; the one listener the
    background script installs is [onControllerEvent]. *)
Fixpoint broadcastAll (ctrl : Controller) (events : list Z) : M unit :=
  match events with
  | [] => ret tt
  | ev :: rest => onControllerEvent ctrl ev ;; broadcastAll ctrl rest
  end.

(** Modelled from the spec: [TabWorker] ([object/tab-worker]) is missing from
    the sources; this is the Tab Registry of spec 4.1.  [route] forwards to
    the addressed machine and broadcasts what it emits; routing to an
    unknown tab id is a no-op. *)
Definition route (tab : Z) (type : string) (data : Payload) : M unit :=
  let! this := get in
  match tabControllers this !! tab with
  | None => ret tt
  | Some ctrl =>
      let '(ctrl', events) := machine ctrl type data in
      put (withTabControllers (<[tab := ctrl']> (tabControllers this)) this) ;;
      broadcastAll ctrl' events
  end.

(** Modelled from the spec: [TabWorker] is missing from the sources; this is
    [detach] of spec 4.1: it forces the owned machine to emit a reset event
    (if it had a current Item) before destruction.  The tab worker delivers
    an event by calling the callback its owner has stored in
    [onControllerEvent], here [listener]; the machine is taken out of the
    registry once the callback has returned, from the state the callback
    leaves. *)
Definition detachWith (listener : Controller -> Z -> M unit) (tab : Z) : M unit :=
  let! this := get in
  match tabControllers this !! tab with
  | None => ret tt
  | Some ctrl =>
      (match getCurrentSong ctrl with
       | Some _ => listener ctrl ControllerReset
       | None => ret tt
       end) ;;
      let! this := get in
      put (withTabControllers (delete tab (tabControllers this)) this)
  end.

(** Modelled from the spec: [detach] of the tab worker of this extension,
    whose [onControllerEvent] is the callback set in the constructor. *)
Definition detach (tab : Z) : M unit := detachWith onControllerEvent tab.

(** Modelled from the spec: [TabWorker.processTabRemove] is missing from the
    sources; a closed tab is detached (spec 4.1). *)
Definition processTabRemove (tab : Z) : M unit := detach tab.

(** Modelled from the spec: [TabWorker.processMessage] is missing from the
    sources; an inbound request is routed to the tab it names (spec 4.1). *)
Definition processMessage (tab : Z) (type : string) (data : Payload) : M unit :=
  route tab type data.

(** Modelled from the spec: [TabWorker.processPortMessage] is missing from
    the sources; a message from a connector's port is routed to the tab of
    the port (spec 4.1). *)
Definition processPortMessage (tab : Z) (type : string) (data : Payload) : M unit :=
  route tab type data.

(** *** [initializeListeners] *)

(** A request received through [browser.runtime.onMessage]. *)
Record Request := { req_tabId : Z; req_type : string; req_data : Payload }.

(** A message received on a port, and the port it came through:
    [port.sender.tab.id]. *)
Record PortMessage := { msg_type : string; msg_data : Payload }.
Record Port := { sender_tab_id : Z }.

(** [browser.runtime.onMessage.addListener((request) => { ... })] *)
Definition runtime_onMessage (request : Request) : M unit :=
  let tab := req_tabId request in
  let type := req_type request in
  let data := req_data request in
  processMessage tab type data.

(** [browser.tabs.onRemoved.addListener((tabId) => { ... })] *)
Definition tabs_onRemoved (tab : Z) : M unit :=
  processTabRemove tab.

(** [port.onMessage.addListener((message) => { ... })] *)
Definition port_onMessage (port : Port) (message : PortMessage) : M unit :=
  let type := msg_type message in
  let data := msg_data message in
  let tab := sender_tab_id port in
  processPortMessage tab type data.

End Background.

Arguments Build_Request {Payload} req_tabId req_type req_data.
Arguments req_tabId {Payload} r.
Arguments req_type {Payload} r.
Arguments req_data {Payload} r.
Arguments Build_PortMessage {Payload} msg_type msg_data.
Arguments msg_type {Payload} p.
Arguments msg_data {Payload} p.

(** ** Observations on traces *)

(** The lifecycle events delivered, with the controller that emitted them. *)
Fixpoint emitted (calls : list Call) : list (Controller * Z) :=
  match calls with
  | [] => []
  | controllerEvent ctrl ev :: rest => (ctrl, ev) :: emitted rest
  | _ :: rest => emitted rest
  end.

Definition isNotification (c : Call) : bool :=
  match c with
  | Notifications_clearNowPlaying _
  | Notifications_showNowPlaying _ _
  | Notifications_showSongNotRecognized _ _
  | Notifications_showAuthNotification _ => true
  | _ => false
  end.

Definition isAnalytics (c : Call) : bool :=
  match c with
  | GA_event _ _ _ | GA_pageview _ => true
  | _ => false
  end.

Definition isAuthDisplay (c : Call) : bool :=
  match c with
  | Notifications_showAuthNotification _ => true
  | _ => false
  end.

Definition isShowNowPlaying (c : Call) : bool :=
  match c with
  | Notifications_showNowPlaying _ _ => true
  | _ => false
  end.

Definition isClearNowPlaying (c : Call) : bool :=
  match c with
  | Notifications_clearNowPlaying _ => true
  | _ => false
  end.

Definition isPageview (c : Call) : bool :=
  match c with
  | GA_pageview _ => true
  | _ => false
  end.

Definition count (p : Call -> bool) (calls : list Call) : nat :=
  length (List.filter p calls).

(** ** Sequences of invocations *)

Inductive Invocation :=
| InvokeStart (env : Env)
| InvokeShowAuthNotification (env : Env).

Definition invoke (i : Invocation) : M unit :=
  match i with
  | InvokeStart env => start env
  | InvokeShowAuthNotification env => showAuthNotification env
  end.

(** Invocations that do not overlap: each one, the [showAuthNotification]
    launched by [start] included, has come to its end before the next one
    begins ([runInTurn] below is the same thing, step by step). *)
Fixpoint invokeAll (invocations : list Invocation) : M unit :=
  match invocations with
  | [] => ret tt
  | i :: rest => invoke i ;; invokeAll rest
  end.

(** The stored counter after one more display. *)
Definition bumped (s : State) : State :=
  withNotificationData
    (<["authDisplayCount" := authDisplayCountOf (notificationData s) + 1]>
       (notificationData s)) s.

(** How many displays the stored counter still allows. *)
Definition remaining (s : State) : nat :=
  Z.to_nat (authNotificationDisplayCount - authDisplayCountOf (notificationData s)).

(** ** Runs that overlap *)












(** A listener that reports whether the tab still has its machine when the
    event arrives: 1 when it has, 0 when it has not. *)
Definition registryProbe (tab : Z) (ctrl : Controller) (event : Z) : M unit :=
  let! this := get in
  call (console_log match tabControllers this !! tab with
                    | Some _ => 1
                    | None => 0
                    end).

(** ** Sample data *)

Definition sampleSong : Song :=
  {| songArtist := "Queen"; songTrack := "Innuendo";
     flags := {| isReplaying := false |} |}.

Definition sampleController : Controller :=
  {| tabId := 7; currentSong := Some sampleSong;
     connector := {| label := "Google Play Music" |};
     lifecycle := NowPlaying |}.

Definition sampleState : State :=
  {| isSessionActive := false;
     extVersion := "2.30.0";
     notificationData := ∅;
     coreData := ∅;
     tabControllers := {[ 7 := sampleController ]} |}.

(** A machine that ignores every message. *)
Definition idleMachine (ctrl : Controller) (type : string) (data : unit)
  : Controller * list Z := (ctrl, []).

Definition sampleEnv : Env :=
  {| notificationsAvailable := true;
     boundScrobblers := [];
     accountsUrl := "moz-extension://id/ui/options/index.html#accounts" |}.

(** ** More observations on traces *)

(** The paths of the page views sent, oldest first. *)
Fixpoint pageviews (calls : list Call) : list string :=
  match calls with
  | [] => []
  | GA_pageview path :: rest => path :: pageviews rest
  | _ :: rest => pageviews rest
  end.

(** The analytics events sent, oldest first. *)
Fixpoint analyticsEvents (calls : list Call) : list (string * string * string) :=
  match calls with
  | [] => []
  | GA_event category action lbl :: rest =>
      (category, action, lbl) :: analyticsEvents rest
  | _ :: rest => analyticsEvents rest
  end.

(** The click handler a call hands to the notifications module, if any. *)
Definition callbackOf (c : Call) : option Callback :=
  match c with
  | Notifications_showNowPlaying _ onClick
  | Notifications_showSongNotRecognized _ onClick
  | Notifications_showAuthNotification onClick => Some onClick
  | _ => None
  end.

Definition isTabCreation (c : Call) : bool :=
  match c with
  | browser_tabs_create _ => true
  | _ => false
  end.


(** The tab worker reporting one activated connector after the other. *)
Fixpoint activateAll (connectors : list ConnectorEntry) : M unit :=
  match connectors with
  | [] => ret tt
  | c :: rest => onConnectorActivated c ;; activateAll rest
  end.

(** ** connectors/google-play.js: the track art *)

Module GooglePlayArt.

(** The remainder of [s] after the prefix [p], if [s] starts with [p]. *)
Fixpoint stripPrefix (p s : string) : option string :=
  match p with
  | EmptyString => Some s
  | String a p' =>
      match s with
      | EmptyString => None
      | String b s' => if Ascii.eqb a b then stripPrefix p' s' else None
      end
  end.

(** [s.replace(pattern, replacement)] with a string pattern: the first
    occurrence only, the leftmost one. *)
Fixpoint replace (pattern replacement s : string) : string :=
  match stripPrefix pattern s with
  | Some rest => replacement +:+ rest
  | None =>
      match s with
      | EmptyString => EmptyString
      | String c rest => String c (replace pattern replacement rest)
      end
  end.

Definition sizeSuffix := "=s90-c-e100".

(** A string is truthy unless it is empty. *)
Definition truthy (s : string) : bool :=
  match s with EmptyString => false | _ => true end.

(** [Connector.getTrackArt]; the argument is
    [$('#playerBarArt').attr('src')], [None] when the attribute or the
    element is missing. *)
Definition getTrackArt (src : option string) : option string :=
  let trackArtUrl := src in
  match trackArtUrl with
  | Some url => if truthy url then Some (replace sizeSuffix "" url) else None
  | None => None
  end.

(** The character '=' (code 61), with which the size suffix starts. *)
Definition equalsSign : Ascii.ascii :=
  Ascii.Ascii true false true true true true false false.

(** Whether the character occurs in the string. *)
Fixpoint mentions (c : Ascii.ascii) (s : string) : bool :=
  match s with
  | EmptyString => false
  | String b rest => Ascii.eqb c b || mentions c rest
  end.

End GooglePlayArt.

(** ** core/background/extension.js: signing in to a scrobbler *)

Module Accounts.

(** A scrobbler, by what its methods answer: [getLabel()]; [getAuthUrl()],
    [None] when the promise rejects; [getStatusUrl()], [None] for [null]. *)
Record Scrobbler := {
  getLabel : string;
  getAuthUrl : option string;
  getStatusUrl : option string;
}.

(** The click handler given to [Notifications.showSignInError]. *)
Inductive Callback := OpenStatusOf (scrobbler : Scrobbler).

Inductive Call :=
| scrobbler_getAuthUrl (scrobbler : Scrobbler)
| ScrobbleService_bindScrobbler (scrobbler : Scrobbler)
| browser_tabs_create (url : string)
| console_log (msg : string)
| Notifications_showSignInError (scrobbler : Scrobbler) (onClick : Callback).

Definition truthy (s : option string) : bool :=
  match s with
  | Some (String _ _) => true
  | _ => false
  end.

(** [() => { const statusUrl = scrobbler.getStatusUrl();
             if (statusUrl) { browser.tabs.create({ url: statusUrl }); } }] *)
Definition click (cb : Callback) : list Call :=
  match cb with
  | OpenStatusOf scrobbler =>
      let statusUrl := getStatusUrl scrobbler in
      match statusUrl with
      | Some url => if truthy statusUrl then [browser_tabs_create url] else []
      | None => []
      end
  end.

(** Ask user for grant access for service covered by given scrobbler.  The
    result is the trace of calls; the [catch] block handles the rejection of
    [getAuthUrl], so the function itself always resolves. *)
Definition authenticateScrobbler (scrobbler : Scrobbler) : list Call :=
  scrobbler_getAuthUrl scrobbler ::
  match getAuthUrl scrobbler with
  | Some authUrl =>
      [ScrobbleService_bindScrobbler scrobbler; browser_tabs_create authUrl]
  | None =>
      [console_log ("Unable to get auth URL for " +:+ getLabel scrobbler);
       Notifications_showSignInError scrobbler (OpenStatusOf scrobbler)]
  end.

Definition isBinding (c : Call) : bool :=
  match c with ScrobbleService_bindScrobbler _ => true | _ => false end.

Definition isTab (c : Call) : bool :=
  match c with browser_tabs_create _ => true | _ => false end.

Definition isSignInError (c : Call) : bool :=
  match c with Notifications_showSignInError _ _ => true | _ => false end.

End Accounts.

(** * Properties *)

(** ** The Google Play connector *)

Lemma isScrobblingAllowed_artist (p : GooglePlay.Page) :
  GooglePlay.isScrobblingAllowed p =
  match GooglePlay.getArtist p with
  | Some a => negb (String.eqb a GooglePlay.adPlaceholder)
  | None => true
  end.
Proof. reflexivity. Qed.

(** C1, as the specification words it, fails: a page whose track title is the
    ad placeholder, and a page whose artist merely contains it, are both
    ineligible under the denylist policy, yet scrobbling is allowed. *)
Lemma isScrobblingAllowed_ignores_track_and_substrings :
  GooglePlay.spec_ineligible
    (GooglePlay.pageOf "Queen" "Subscribe to go ad-free") = true /\
  GooglePlay.isScrobblingAllowed
    (GooglePlay.pageOf "Queen" "Subscribe to go ad-free") = true /\
  GooglePlay.spec_ineligible
    (GooglePlay.pageOf "Subscribe to go ad-free today" "Innuendo") = true /\
  GooglePlay.isScrobblingAllowed
    (GooglePlay.pageOf "Subscribe to go ad-free today" "Innuendo") = true.
Proof. repeat split; vm_compute; reflexivity. Qed.

(** C1, amended: in the Google Play connector, [isScrobblingAllowed] returns
    false exactly when the artist text is the ad placeholder
    'Subscribe to go ad-free' itself; every such page is ineligible under
    the denylist policy as well. *)
Theorem isScrobblingAllowed_false_iff_artist_is_placeholder (p : GooglePlay.Page) :
  (GooglePlay.isScrobblingAllowed p = false <->
   GooglePlay.getArtist p = Some "Subscribe to go ad-free") /\
  (GooglePlay.isScrobblingAllowed p = false ->
   GooglePlay.spec_ineligible p = true).
Proof.
  assert (Hiff : GooglePlay.isScrobblingAllowed p = false <->
                 GooglePlay.getArtist p = Some "Subscribe to go ad-free").
  { rewrite isScrobblingAllowed_artist.
    destruct (GooglePlay.getArtist p) as [a|]; split; intros H; try discriminate.
    - apply negb_false_iff, String.eqb_eq in H. now subst.
    - injection H as ->. reflexivity. }
  split; [exact Hiff|].
  intros H. apply Hiff in H. unfold GooglePlay.spec_ineligible. rewrite H.
  reflexivity.
Qed.

Lemma isScrobblingAllowed_false_iff_artist_is_placeholder_witness :
  GooglePlay.isScrobblingAllowed
    (GooglePlay.pageOf "Subscribe to go ad-free" "Innuendo") = false /\
  GooglePlay.spec_ineligible
    (GooglePlay.pageOf "Subscribe to go ad-free" "Innuendo") = true.
Proof.
  assert (H : GooglePlay.isScrobblingAllowed
                (GooglePlay.pageOf "Subscribe to go ad-free" "Innuendo") = false)
    by (vm_compute; reflexivity).
  split; [exact H|].
  exact (proj2 (isScrobblingAllowed_false_iff_artist_is_placeholder _) H).
Defined.

(** ** [processControllerEvent] *)

Section ControllerEvents.

Variables CR NP SS SU : Z.

(** Which [case] of the [switch] is taken. *)
Lemma process_ControllerReset ctrl :
  processControllerEvent CR NP SS SU ctrl CR =
  match getCurrentSong ctrl with
  | Some sg => call (Notifications_clearNowPlaying sg)
  | None => ret tt
  end.
Proof. unfold processControllerEvent. now rewrite Z.eqb_refl. Qed.

Lemma process_SongNowPlaying ctrl :
  NP <> CR ->
  processControllerEvent CR NP SS SU ctrl NP =
  match getCurrentSong ctrl with
  | None => throw TypeError
  | Some sg =>
      if isReplaying (flags sg) then ret tt
      else call (Notifications_showNowPlaying sg (OpenTabOf ctrl))
  end.
Proof.
  intros H. unfold processControllerEvent.
  apply Z.eqb_neq in H. now rewrite H, Z.eqb_refl.
Qed.

Lemma process_SongScrobbled ctrl :
  SS <> CR -> SS <> NP ->
  processControllerEvent CR NP SS SU ctrl SS = call (GA_event "core" "scrobble" (label (getConnector ctrl))).
Proof.
  intros H1 H2. unfold processControllerEvent.
  apply Z.eqb_neq in H1, H2. now rewrite H1, H2, Z.eqb_refl.
Qed.

Lemma process_SongUnrecognized ctrl :
  SU <> CR -> SU <> NP -> SU <> SS ->
  processControllerEvent CR NP SS SU ctrl SU =
  (call (console_log 2222) ;;
   call (Notifications_showSongNotRecognized (getCurrentSong ctrl) (OpenTabOf ctrl))).
Proof.
  intros H1 H2 H3. unfold processControllerEvent.
  apply Z.eqb_neq in H1, H2, H3. now rewrite H1, H2, H3, Z.eqb_refl.
Qed.

Lemma process_other ctrl event :
  event <> CR -> event <> NP -> event <> SS -> event <> SU ->
  processControllerEvent CR NP SS SU ctrl event = ret tt.
Proof.
  intros H1 H2 H3 H4. unfold processControllerEvent.
  apply Z.eqb_neq in H1, H2, H3, H4. now rewrite H1, H2, H3, H4.
Qed.

End ControllerEvents.

(** C2: on [SongNowPlaying], with a current song, the now-playing
    notification is shown if and only if the song is not flagged as
    replaying; the handler returns normally, leaves the state alone, and
    makes no other call. *)
Theorem nowPlaying_shown_iff_not_replaying
    (CR NP SS SU : Z) (ctrl : Controller) (song : Song) (s : State) :
  NP <> CR ->
  getCurrentSong ctrl = Some song ->
  let o := processControllerEvent CR NP SS SU ctrl NP s in
  (existsb isShowNowPlaying (callsOf o) = true <->
   isReplaying (flags song) = false) /\
  o = Returned tt s
        (if isReplaying (flags song) then []
         else [Notifications_showNowPlaying song (OpenTabOf ctrl)]).
Proof.
  intros Hne Hsong o. subst o.
  rewrite process_SongNowPlaying by assumption. rewrite Hsong.
  destruct (isReplaying (flags song)); cbn; split; try reflexivity;
    split; intros H; try discriminate; reflexivity.
Qed.

Lemma nowPlaying_shown_iff_not_replaying_witness :
  1 <> 0 /\
  getCurrentSong sampleController = Some sampleSong /\
  processControllerEvent 0 1 2 3 sampleController 1 sampleState =
  Returned tt sampleState
    [Notifications_showNowPlaying sampleSong (OpenTabOf sampleController)].
Proof.
  split; [lia|]. split; [reflexivity|].
  apply (nowPlaying_shown_iff_not_replaying 0 1 2 3
           sampleController sampleSong sampleState); [lia | reflexivity].
Defined.

(** C5: on [SongUnrecognized], the song-not-recognized notification is shown
    for the controller's current song (possibly [null]), and clicking it
    opens the tab the controller belongs to. *)
Theorem unrecognized_song_is_surfaced
    (CR NP SS SU : Z) (ctrl : Controller) (s : State) :
  SU <> CR -> SU <> NP -> SU <> SS ->
  exists onClick,
    processControllerEvent CR NP SS SU ctrl SU s =
    Returned tt s
      [console_log 2222;
       Notifications_showSongNotRecognized (getCurrentSong ctrl) onClick] /\
    click onClick = [openTab (tabId ctrl)].
Proof.
  intros H1 H2 H3. exists (OpenTabOf ctrl).
  rewrite process_SongUnrecognized by assumption. split; reflexivity.
Qed.

Lemma unrecognized_song_is_surfaced_witness :
  (3 <> 0 /\ 3 <> 1 /\ 3 <> 2) /\
  exists onClick,
    processControllerEvent 0 1 2 3 sampleController 3 sampleState =
    Returned tt sampleState
      [console_log 2222;
       Notifications_showSongNotRecognized (Some sampleSong) onClick] /\
    click onClick = [openTab 7].
Proof.
  split; [lia|].
  apply (unrecognized_song_is_surfaced 0 1 2 3 sampleController sampleState);
    lia.
Defined.

(** C6: on [SongScrobbled], exactly one analytics event is sent,
    ('core', 'scrobble', label), with the label of the controller's
    connector; nothing else is called and the state is left alone. *)
Theorem scrobbled_sends_one_analytics_event
    (CR NP SS SU : Z) (ctrl : Controller) (s : State) :
  SS <> CR -> SS <> NP ->
  let o := processControllerEvent CR NP SS SU ctrl SS s in
  o = Returned tt s [GA_event "core" "scrobble" (label (getConnector ctrl))] /\
  count isAnalytics (callsOf o) = 1%nat.
Proof.
  intros H1 H2 o. subst o.
  rewrite process_SongScrobbled by assumption. split; reflexivity.
Qed.

Lemma scrobbled_sends_one_analytics_event_witness :
  (2 <> 0 /\ 2 <> 1) /\
  processControllerEvent 0 1 2 3 sampleController 2 sampleState =
  Returned tt sampleState [GA_event "core" "scrobble" "Google Play Music"].
Proof.
  split; [lia|].
  apply (scrobbled_sends_one_analytics_event 0 1 2 3
           sampleController sampleState); lia.
Defined.

(** C7: an event that is none of the four lifecycle events falls through the
    [switch]: the state is unchanged and no call at all is made, so no
    notification and no analytics call. *)
Theorem other_events_are_ignored
    (CR NP SS SU : Z) (ctrl : Controller) (event : Z) (s : State) :
  event <> CR -> event <> NP -> event <> SS -> event <> SU ->
  let o := processControllerEvent CR NP SS SU ctrl event s in
  o = Returned tt s [] /\
  stateOf o = s /\
  count isNotification (callsOf o) = 0%nat /\
  count isAnalytics (callsOf o) = 0%nat.
Proof.
  intros H1 H2 H3 H4 o. subst o.
  rewrite process_other by assumption. repeat split.
Qed.

Lemma other_events_are_ignored_witness :
  (4 <> 0 /\ 4 <> 1 /\ 4 <> 2 /\ 4 <> 3) /\
  processControllerEvent 0 1 2 3 sampleController 4 sampleState =
  Returned tt sampleState [].
Proof.
  split; [lia|].
  apply (other_events_are_ignored 0 1 2 3 sampleController 4 sampleState); lia.
Defined.

(** C9: on [ControllerReset], the now-playing notification is cleared if and
    only if the controller has a current song; the handler never raises,
    in particular not when [getCurrentSong()] is [null]. *)
Theorem reset_clears_iff_current_song
    (CR NP SS SU : Z) (ctrl : Controller) (s : State) :
  let o := processControllerEvent CR NP SS SU ctrl CR s in
  raised o = false /\
  (existsb isClearNowPlaying (callsOf o) = true <->
   getCurrentSong ctrl <> None) /\
  o = Returned tt s
        match getCurrentSong ctrl with
        | Some song => [Notifications_clearNowPlaying song]
        | None => []
        end.
Proof.
  intros o. subst o. rewrite process_ControllerReset.
  destruct (getCurrentSong ctrl) as [song|]; cbn; repeat split;
    try congruence; try discriminate.
Qed.

(** ** [setSessionActive] *)

Lemma withSessionActive_fixed (s : State) :
  isSessionActive s = true -> withSessionActive s = s.
Proof. destruct s; cbn; intros ->; reflexivity. Qed.

Lemma setSessionActive_run (s : State) :
  setSessionActive s =
  Returned tt (withSessionActive s)
    (if isSessionActive s then []
     else [GA_pageview ("/background-injected?version=" +:+ extVersion s)]).
Proof.
  unfold setSessionActive, bind, get, put, call, ret.
  destruct (isSessionActive s) eqn:E; cbn.
  - now rewrite withSessionActive_fixed.
  - reflexivity.
Qed.

Lemma repeatM_setSessionActive_active (n : nat) (s : State) :
  isSessionActive s = true ->
  repeatM n setSessionActive s = Returned tt s [].
Proof.
  intros H. induction n as [|n IH]; [reflexivity|].
  cbn [repeatM]. unfold bind at 1.
  rewrite setSessionActive_run, H.
  rewrite withSessionActive_fixed by exact H. now rewrite IH.
Qed.

(** C10: [setSessionActive] is idempotent.  A call on an inactive session
    sets [isSessionActive] and sends exactly one 'background-injected' page
    view; a call on an active session changes nothing and sends nothing; any
    number of calls in a row has the outcome of the first one. *)
Theorem setSessionActive_idempotent (s : State) (n : nat) :
  setSessionActive s =
    Returned tt (withSessionActive s)
      (if isSessionActive s then []
       else [GA_pageview ("/background-injected?version=" +:+ extVersion s)]) /\
  isSessionActive (withSessionActive s) = true /\
  setSessionActive (withSessionActive s) = Returned tt (withSessionActive s) [] /\
  count isPageview (callsOf (setSessionActive s)) =
    (if isSessionActive s then 0 else 1)%nat /\
  (setSessionActive ;; setSessionActive) s = setSessionActive s /\
  repeatM (S n) setSessionActive s = setSessionActive s.
Proof.
  assert (Hact : isSessionActive (withSessionActive s) = true) by reflexivity.
  assert (Hrest : forall k,
    repeatM k setSessionActive (withSessionActive s)
    = Returned tt (withSessionActive s) [])
    by (intros k; now apply repeatM_setSessionActive_active).
  split; [apply setSessionActive_run|].
  split; [exact Hact|].
  split; [exact (Hrest 1%nat)|].
  split; [rewrite setSessionActive_run; now destruct (isSessionActive s)|].
  split.
  - unfold bind at 1. rewrite (setSessionActive_run s).
    rewrite (setSessionActive_run (withSessionActive s)). cbn.
    now rewrite app_nil_r.
  - cbn [repeatM]. unfold bind at 1. rewrite (setSessionActive_run s), Hrest.
    now rewrite app_nil_r.
Qed.

(** ** The authentication notification *)

Lemma count_app (p : Call -> bool) (a b : list Call) :
  count p (a ++ b) = (count p a + count p b)%nat.
Proof. unfold count. now rewrite List.filter_app, length_app. Qed.

Lemma showAuthNotification_run (env : Env) (s : State) :
  showAuthNotification env s =
  if authDisplayCountOf (notificationData s) <? authNotificationDisplayCount
  then Returned tt (bumped s)
         (Notifications_showAuthNotification (CreateTabAt (accountsUrl env))
          :: if notificationsAvailable env then []
             else [browser_tabs_create (accountsUrl env)])
  else Returned tt s [].
Proof.
  unfold showAuthNotification, isAuthNotificationAllowed, updateAuthDisplayCount,
    notificationStorage_get, notificationStorage_set, Notifications_showAuth,
    try_catch, bind, get, put, call, ret, throw.
  destruct (authDisplayCountOf (notificationData s) <? authNotificationDisplayCount);
    [|reflexivity].
  destruct (notificationsAvailable env); reflexivity.
Qed.

Lemma authDisplayCountOf_bumped (s : State) :
  authDisplayCountOf (notificationData (bumped s)) =
  authDisplayCountOf (notificationData s) + 1.
Proof.
  unfold bumped, authDisplayCountOf at 1. cbn.
  now rewrite lookup_insert_eq.
Qed.

Lemma showAuthNotification_budget (env : Env) (s : State) :
  raised (showAuthNotification env s) = false /\
  (count isAuthDisplay (callsOf (showAuthNotification env s))
   + remaining (stateOf (showAuthNotification env s)))%nat = remaining s.
Proof.
  rewrite showAuthNotification_run.
  destruct (Z.ltb_spec (authDisplayCountOf (notificationData s))
              authNotificationDisplayCount) as [Hlt|Hge].
  - split; [reflexivity|]. cbn [callsOf stateOf].
    unfold remaining. rewrite authDisplayCountOf_bumped.
    replace (count isAuthDisplay _) with 1%nat
      by (destruct (notificationsAvailable env); reflexivity).
    unfold authNotificationDisplayCount in *. lia.
  - split; reflexivity.
Qed.

Lemma start_run (env : Env) (s : State) :
  let s1 := withCoreData (<["appVersion" := extVersion s]> (coreData s)) s in
  let unbound := Nat.eqb (length (boundScrobblers env)) 0 in
  exists s2 shown,
    (if unbound then showAuthNotification env s1 else Returned tt s1 [])
      = Returned tt s2 shown /\
    start env s =
    Returned tt s2
      ([storage_debugLog; ScrobbleService_bindAllScrobblers]
       ++ (if unbound then [console_warn "No scrobblers are bound"] else [])
       ++ [GA_pageview ("/background-loaded?version=" +:+ extVersion s)]
       ++ shown).
Proof.
  intros s1 unbound.
  unfold start, updateVersionInStorage, bindScrobblers, bind, get, put, call, ret.
  fold s1. fold unbound.
  destruct unbound; cbn [negb]; [|eexists _, _; split; reflexivity].
  pose proof (showAuthNotification_budget env s1) as [Hr _].
  destruct (showAuthNotification env s1) as [[] s2 shown|]; [|discriminate].
  eexists _, _; split; reflexivity.
Qed.

Lemma start_budget (env : Env) (s : State) :
  raised (start env s) = false /\
  (count isAuthDisplay (callsOf (start env s))
   + remaining (stateOf (start env s)))%nat = remaining s.
Proof.
  destruct (start_run env s) as (s2 & shown & Hshow & ->).
  split; [reflexivity|]. cbn [callsOf stateOf].
  set (s1 := withCoreData _ s) in Hshow.
  assert (Hs1 : remaining s1 = remaining s) by reflexivity.
  rewrite <- Hs1.
  rewrite !count_app.
  destruct (Nat.eqb (length (boundScrobblers env)) 0).
  - destruct (showAuthNotification_budget env s1) as [_ Hb].
    rewrite Hshow in Hb. cbn [callsOf stateOf] in Hb.
    rewrite <- Hb. reflexivity.
  - injection Hshow as <- <-. reflexivity.
Qed.

Lemma invoke_budget (i : Invocation) (s : State) :
  raised (invoke i s) = false /\
  (count isAuthDisplay (callsOf (invoke i s))
   + remaining (stateOf (invoke i s)))%nat = remaining s.
Proof.
  destruct i; [apply start_budget | apply showAuthNotification_budget].
Qed.

Lemma invokeAll_budget (invocations : list Invocation) (s : State) :
  raised (invokeAll invocations s) = false /\
  (count isAuthDisplay (callsOf (invokeAll invocations s))
   + remaining (stateOf (invokeAll invocations s)))%nat = remaining s.
Proof.
  revert s. induction invocations as [|i rest IH]; intros s.
  - split; reflexivity.
  - cbn [invokeAll]. unfold bind.
    destruct (invoke_budget i s) as [Hr Hb].
    destruct (invoke i s) as [[] s1 c1|]; [|discriminate].
    cbn [callsOf stateOf] in Hb.
    destruct (IH s1) as [Hr' Hb'].
    destruct (invokeAll rest s1) as [[] s2 c2|]; [|discriminate].
    cbn [callsOf stateOf raised] in *.
    split; [reflexivity|]. rewrite count_app. lia.
Qed.

Lemma start_outcome (env : Env) (s : State) :
  let s1 := withCoreData (<["appVersion" := extVersion s]> (coreData s)) s in
  let unbound := Nat.eqb (length (boundScrobblers env)) 0 in
  let asked :=
    if unbound then showAuthNotification env s1 else Returned tt s1 [] in
  start env s =
  Returned tt (stateOf asked)
    ([storage_debugLog; ScrobbleService_bindAllScrobblers]
     ++ (if unbound then [console_warn "No scrobblers are bound"] else [])
     ++ [GA_pageview ("/background-loaded?version=" +:+ extVersion s)]
     ++ callsOf asked).
Proof.
  intros s1 unbound asked.
  destruct (start_run env s) as (s2 & shown & Hshow & ->).
  fold s1 unbound asked in Hshow. now rewrite Hshow.
Qed.

Lemma invokeAll_cons (i : Invocation) (rest : list Invocation) (s : State) :
  exists s1 c1 s2 c2,
    invoke i s = Returned tt s1 c1 /\
    invokeAll rest s1 = Returned tt s2 c2 /\
    invokeAll (i :: rest) s = Returned tt s2 (c1 ++ c2).
Proof.
  destruct (invoke_budget i s) as [Hr _].
  destruct (invoke i s) as [[] s1 c1|] eqn:Hi; [|discriminate].
  destruct (invokeAll_budget rest s1) as [Hr' _].
  destruct (invokeAll rest s1) as [[] s2 c2|] eqn:Hrest; [|discriminate].
  exists s1, c1, s2, c2. split; [reflexivity|]. split; [exact Hrest|].
  cbn [invokeAll]. unfold bind at 1. now rewrite Hi, Hrest.
Qed.

(** *** Runs one at a time, step by step *)








(** ** The tab registry *)

Section Registry.

Variables CR NP SS SU : Z.

Lemma onControllerEvent_reset (ctrl : Controller) (item : Song) (s : State) :
  getCurrentSong ctrl = Some item ->
  onControllerEvent CR NP SS SU ctrl CR s =
  Returned tt s [controllerEvent ctrl CR; Notifications_clearNowPlaying item].
Proof.
  intros H. unfold onControllerEvent, bind, call.
  rewrite process_ControllerReset, H. reflexivity.
Qed.

Lemma detach_unknown (tab : Z) (s : State) :
  tabControllers s !! tab = None ->
  detach CR NP SS SU tab s = Returned tt s [].
Proof.
  intros H. unfold detach, detachWith, bind, get. rewrite H. reflexivity.
Qed.

Lemma detach_idle (tab : Z) (ctrl : Controller) (s : State) :
  tabControllers s !! tab = Some ctrl ->
  getCurrentSong ctrl = None ->
  detach CR NP SS SU tab s =
  Returned tt (withTabControllers (delete tab (tabControllers s)) s) [].
Proof.
  intros H Hs. unfold detach, detachWith, bind, get. rewrite H, Hs.
  reflexivity.
Qed.

Lemma detach_current (tab : Z) (ctrl : Controller) (item : Song) (s : State) :
  tabControllers s !! tab = Some ctrl ->
  getCurrentSong ctrl = Some item ->
  detach CR NP SS SU tab s =
  Returned tt (withTabControllers (delete tab (tabControllers s)) s)
    [controllerEvent ctrl CR; Notifications_clearNowPlaying item].
Proof.
  intros H Hs. unfold detach, detachWith.
  unfold bind at 1. unfold get at 1. rewrite H.
  unfold bind at 1. rewrite Hs, (onControllerEvent_reset ctrl item s Hs).
  reflexivity.
Qed.

Lemma route_unknown (Payload : Type)
    (machine : Controller -> string -> Payload -> Controller * list Z)
    (tab : Z) (type : string) (data : Payload) (s : State) :
  tabControllers s !! tab = None ->
  route CR NP SS SU Payload machine tab type data s = Returned tt s [].
Proof. intros H. unfold route, bind, get. rewrite H. reflexivity. Qed.

End Registry.

Lemma detachWith_current
    (CR : Z) (listener : Controller -> Z -> M unit)
    (tab : Z) (ctrl : Controller) (item : Song) (s : State) :
  tabControllers s !! tab = Some ctrl ->
  getCurrentSong ctrl = Some item ->
  detachWith CR listener tab s =
  match listener ctrl CR s with
  | Returned _ s1 calls =>
      Returned tt (withTabControllers (delete tab (tabControllers s1)) s1) calls
  | Thrown e s1 calls => Thrown e s1 calls
  end.
Proof.
  intros H Hs. unfold detachWith.
  unfold bind at 1. unfold get at 1. rewrite H, Hs.
  unfold bind at 1.
  destruct (listener ctrl CR s) as [[] s1 calls|e s1 calls]; [|reflexivity].
  cbn. now rewrite app_nil_r.
Qed.

(** C3: when a tab is closed, its machine is detached: if the machine has a
    current Item that has not reached its terminal state, exactly one
    lifecycle event is emitted, a [ControllerReset] carrying that machine
    and hence that Item (whose now-playing notification is cleared), and
    afterwards the machine is gone from the registry while every other tab
    keeps its machine.  The Reset comes before the destruction: whatever
    listener is installed, it is called once, with that machine and
    [ControllerReset], in the state in which the tab still has its machine,
    and the machine is removed from the state the listener leaves; if the
    listener throws, nothing has been removed. *)
Theorem tab_close_emits_exactly_one_reset
    (CR NP SS SU : Z) (tab : Z) (ctrl : Controller) (item : Song) (s : State) :
  tabControllers s !! tab = Some ctrl ->
  getCurrentSong ctrl = Some item ->
  isTerminal (lifecycle ctrl) = false ->
  let o := tabs_onRemoved CR NP SS SU tab s in
  o = detach CR NP SS SU tab s /\
  raised o = false /\
  emitted (callsOf o) = [(ctrl, CR)] /\
  callsOf o = [controllerEvent ctrl CR; Notifications_clearNowPlaying item] /\
  tabControllers (stateOf o) !! tab = None /\
  (forall other, other <> tab ->
     tabControllers (stateOf o) !! other = tabControllers s !! other) /\
  o = detachWith CR (onControllerEvent CR NP SS SU) tab s /\
  (forall listener : Controller -> Z -> M unit,
     detachWith CR listener tab s =
     match listener ctrl CR s with
     | Returned _ s1 calls =>
         Returned tt
           (withTabControllers (delete tab (tabControllers s1)) s1) calls
     | Thrown e s1 calls => Thrown e s1 calls
     end) /\
  onControllerEvent CR NP SS SU ctrl CR s =
    Returned tt s [controllerEvent ctrl CR; Notifications_clearNowPlaying item].
Proof.
  intros H Hs _ o. subst o. unfold tabs_onRemoved, processTabRemove.
  assert (Hord : forall listener : Controller -> Z -> M unit,
            detachWith CR listener tab s =
            match listener ctrl CR s with
            | Returned _ s1 calls =>
                Returned tt
                  (withTabControllers (delete tab (tabControllers s1)) s1) calls
            | Thrown e s1 calls => Thrown e s1 calls
            end)
    by (intros listener; now apply detachWith_current with item).
  rewrite (detach_current CR NP SS SU tab ctrl item s H Hs).
  cbn [raised callsOf stateOf emitted withTabControllers tabControllers].
  split; [reflexivity|]. split; [reflexivity|]. split; [reflexivity|].
  split; [reflexivity|]. split; [apply lookup_delete_eq|].
  split; [intros other Hne; now apply lookup_delete_ne|].
  split; [|split; [exact Hord|now apply onControllerEvent_reset]].
  rewrite Hord, (onControllerEvent_reset CR NP SS SU ctrl item s Hs).
  reflexivity.
Qed.

Lemma tab_close_emits_exactly_one_reset_witness :
  tabControllers sampleState !! 7 = Some sampleController /\
  getCurrentSong sampleController = Some sampleSong /\
  isTerminal (lifecycle sampleController) = false /\
  emitted (callsOf (tabs_onRemoved 0 1 2 3 7 sampleState))
  = [(sampleController, 0)] /\
  callsOf (detachWith 0 (registryProbe 7) 7 sampleState) = [console_log 1] /\
  tabControllers (stateOf (detachWith 0 (registryProbe 7) 7 sampleState)) !! 7
  = None.
Proof.
  assert (H : tabControllers sampleState !! 7 = Some sampleController)
    by (vm_compute; reflexivity).
  split; [exact H|]. split; [reflexivity|]. split; [reflexivity|].
  destruct (tab_close_emits_exactly_one_reset 0 1 2 3 7
              sampleController sampleSong sampleState H eq_refl eq_refl)
    as (_ & _ & Hem & _ & _ & _ & _ & Hord & _).
  split; [exact Hem|].
  rewrite (Hord (registryProbe 7)).
  split; vm_compute; reflexivity.
Defined.

(** C4: a request or a port message addressed to a tab id that has no machine
    is dropped: the listener returns normally, the state (every tab's
    machine, the storages, the session flag) is the one it started from, and
    no collaborator is called, hence no scrobbler binding is touched. *)
Theorem routing_to_unknown_tab_is_noop
    (CR NP SS SU : Z) (Payload : Type)
    (machine : Controller -> string -> Payload -> Controller * list Z)
    (request : Request Payload) (port : Port) (message : PortMessage Payload)
    (s : State) :
  tabControllers s !! req_tabId request = None ->
  tabControllers s !! sender_tab_id port = None ->
  runtime_onMessage CR NP SS SU Payload machine request s = Returned tt s [] /\
  port_onMessage CR NP SS SU Payload machine port message s = Returned tt s [] /\
  raised (runtime_onMessage CR NP SS SU Payload machine request s) = false /\
  raised (port_onMessage CR NP SS SU Payload machine port message s) = false.
Proof.
  intros Hr Hp.
  unfold runtime_onMessage, port_onMessage, processMessage, processPortMessage.
  rewrite !route_unknown by assumption. repeat split.
Qed.

Lemma routing_to_unknown_tab_is_noop_witness :
  tabControllers sampleState !! 8 = None /\
  runtime_onMessage 0 1 2 3 unit idleMachine
    (Build_Request 8 "REQUEST_SKIP_SONG" tt) sampleState
  = Returned tt sampleState [] /\
  port_onMessage 0 1 2 3 unit idleMachine
    {| sender_tab_id := 8 |} (Build_PortMessage "EVENT_STATE_CHANGED" tt)
    sampleState
  = Returned tt sampleState [].
Proof.
  assert (H : tabControllers sampleState !! 8 = None)
    by (vm_compute; reflexivity).
  split; [exact H|].
  pose proof (routing_to_unknown_tab_is_noop 0 1 2 3 unit idleMachine
                (Build_Request 8 "REQUEST_SKIP_SONG" tt)
                {| sender_tab_id := 8 |}
                (Build_PortMessage "EVENT_STATE_CHANGED" tt)
                sampleState H H) as (H1 & H2 & _).
  split; assumption.
Defined.

(** * Further properties of the background script *)

(** ** [start] *)

Lemma showAuthNotification_no_pageview (env : Env) (s : State) :
  pageviews (callsOf (showAuthNotification env s)) = [].
Proof.
  rewrite showAuthNotification_run.
  destruct (_ <? _); [|reflexivity].
  now destruct (notificationsAvailable env).
Qed.

Lemma pageviews_app (a b : list Call) :
  pageviews (a ++ b) = (pageviews a ++ pageviews b)%list.
Proof.
  induction a as [|c a IH]; [reflexivity|].
  destruct c; cbn; now rewrite IH.
Qed.

(** X1: a run of [start] in which the promises it awaits resolve sends
    exactly one page view, '/background-loaded?version=' followed by the
    extension version, whether or not a scrobbler is bound and whether or
    not the authentication notification gets shown. *)
Theorem start_sends_one_loaded_pageview (env : Env) (s : State) :
  pageviews (callsOf (start env s)) =
    ["/background-loaded?version=" +:+ extVersion s] /\
  count isPageview (callsOf (start env s)) = 1%nat.
Proof.
  assert (Hpv : pageviews (callsOf (start env s)) =
                ["/background-loaded?version=" +:+ extVersion s]).
  { rewrite start_outcome. cbn [callsOf]. rewrite !pageviews_app.
    destruct (Nat.eqb _ 0); cbn [pageviews app callsOf].
    - now rewrite showAuthNotification_no_pageview.
    - reflexivity. }
  split; [exact Hpv|].
  revert Hpv. generalize (callsOf (start env s)). intros calls.
  assert (Hlen : forall l, count isPageview l = length (pageviews l)).
  { induction l as [|c l IH]; [reflexivity|].
    unfold count in *. destruct c; cbn; now rewrite ?IH. }
  intros H. now rewrite Hlen, H.
Qed.

Lemma showAuthNotification_keeps (env : Env) (s : State) :
  let s' := stateOf (showAuthNotification env s) in
  isSessionActive s' = isSessionActive s /\
  extVersion s' = extVersion s /\
  coreData s' = coreData s /\
  tabControllers s' = tabControllers s /\
  forall key, key <> "authDisplayCount" ->
    notificationData s' !! key = notificationData s !! key.
Proof.
  cbn zeta. rewrite showAuthNotification_run.
  destruct (_ <? _); cbn; repeat split; try reflexivity.
  intros key Hkey. now rewrite lookup_insert_ne.
Qed.

Lemma start_keeps (env : Env) (s : State) :
  let s' := stateOf (start env s) in
  coreData s' !! "appVersion" = Some (extVersion s) /\
  (forall key, key <> "appVersion" -> coreData s' !! key = coreData s !! key) /\
  extVersion s' = extVersion s /\
  isSessionActive s' = isSessionActive s /\
  tabControllers s' = tabControllers s.
Proof.
  cbn zeta. rewrite start_outcome. cbn [stateOf].
  set (s1 := withCoreData _ s).
  destruct (Nat.eqb _ 0).
  - destruct (showAuthNotification_keeps env s1) as (Ha & Hv & Hc & Ht & _).
    rewrite Ha, Hv, Hc, Ht. subst s1. cbn. repeat split.
    + apply lookup_insert_eq.
    + intros key Hkey. now rewrite lookup_insert_ne.
  - subst s1. cbn. repeat split.
    + apply lookup_insert_eq.
    + intros key Hkey. now rewrite lookup_insert_ne.
Qed.

(** X2: after [start], the core storage holds the running version under
    'appVersion' and every other key of it is as before; the version and the
    session flag of the extension and the registered controllers are
    untouched. *)
Theorem start_records_version (env : Env) (s : State) :
  let s' := stateOf (start env s) in
  coreData s' !! "appVersion" = Some (extVersion s) /\
  (forall key, key <> "appVersion" -> coreData s' !! key = coreData s !! key) /\
  extVersion s' = extVersion s /\
  isSessionActive s' = isSessionActive s /\
  tabControllers s' = tabControllers s.
Proof.
  cbn zeta. destruct (start_keeps env s) as (Hv & Hk & He & Ha & Ht).
  split; [exact Hv|]. split; [exact Hk|]. now rewrite He, Ha, Ht.
Qed.

Lemma start_records_version_witness :
  "lastSeen" <> "appVersion" /\
  coreData (stateOf (start sampleEnv sampleState)) !! "appVersion"
    = Some "2.30.0" /\
  coreData (stateOf (start sampleEnv sampleState)) !! "lastSeen"
    = coreData sampleState !! "lastSeen".
Proof.
  assert (Hne : "lastSeen" <> "appVersion") by discriminate.
  destruct (start_records_version sampleEnv sampleState) as (Hv & Hk & _).
  split; [exact Hne|]. split; [exact Hv|]. exact (Hk "lastSeen" Hne).
Defined.

(** X3: when at least one scrobbler is bound, [start] warns about nothing,
    shows no notification, opens no tab and leaves the notification storage
    as it is: its calls are the storage log, the binding request and the
    page view. *)
Theorem start_with_a_bound_scrobbler_is_quiet (env : Env) (s : State) :
  boundScrobblers env <> [] ->
  callsOf (start env s) =
    [storage_debugLog; ScrobbleService_bindAllScrobblers;
     GA_pageview ("/background-loaded?version=" +:+ extVersion s)] /\
  count isNotification (callsOf (start env s)) = 0%nat /\
  notificationData (stateOf (start env s)) = notificationData s.
Proof.
  intros Hb. rewrite start_outcome.
  destruct (boundScrobblers env) as [|b rest]; [congruence|].
  cbn. repeat split.
Qed.

Lemma start_with_a_bound_scrobbler_is_quiet_witness :
  ["LastFM"] <> [] /\
  count isNotification
    (callsOf (start {| notificationsAvailable := true;
                       boundScrobblers := ["LastFM"];
                       accountsUrl := "" |} sampleState)) = 0%nat.
Proof.
  split; [discriminate|].
  apply (start_with_a_bound_scrobbler_is_quiet
           {| notificationsAvailable := true;
              boundScrobblers := ["LastFM"];
              accountsUrl := "" |} sampleState).
  discriminate.
Defined.

(** X4: when no scrobbler is bound, [start] warns, then sends the page view,
    and only then runs [showAuthNotification], on the state in which the
    version has been stored: the call is not awaited. *)
Theorem start_without_scrobblers_asks_after_the_pageview (env : Env) (s : State) :
  boundScrobblers env = [] ->
  let s1 := withCoreData (<["appVersion" := extVersion s]> (coreData s)) s in
  callsOf (start env s) =
    ([storage_debugLog; ScrobbleService_bindAllScrobblers;
      console_warn "No scrobblers are bound";
      GA_pageview ("/background-loaded?version=" +:+ extVersion s)]
     ++ callsOf (showAuthNotification env s1))%list /\
  stateOf (start env s) = stateOf (showAuthNotification env s1).
Proof.
  intros Hb s1. rewrite start_outcome, Hb. split; reflexivity.
Qed.

Lemma start_without_scrobblers_asks_after_the_pageview_witness :
  boundScrobblers sampleEnv = [] /\
  callsOf (start sampleEnv sampleState) =
    ([storage_debugLog; ScrobbleService_bindAllScrobblers;
      console_warn "No scrobblers are bound";
      GA_pageview ("/background-loaded?version=" +:+ extVersion sampleState)]
     ++ callsOf (showAuthNotification sampleEnv
          (withCoreData (<["appVersion" := extVersion sampleState]>
                           (coreData sampleState)) sampleState)))%list.
Proof.
  split; [reflexivity|].
  apply (start_without_scrobblers_asks_after_the_pageview
           sampleEnv sampleState eq_refl).
Defined.

(** ** The authentication notification over many runs *)



(** A relation between the state before and the state after that every
    single run keeps, and that is reflexive and transitive, holds over any
    sequence of runs. *)
Lemma invokeAll_preserves (R : State -> State -> Prop) :
  (forall s, R s s) ->
  (forall a b c, R a b -> R b c -> R a c) ->
  (forall i s, R s (stateOf (invoke i s))) ->
  forall invocations s, R s (stateOf (invokeAll invocations s)).
Proof.
  intros Hrefl Htrans Hstep invocations.
  induction invocations as [|i rest IH]; intros s; [apply Hrefl|].
  destruct (invokeAll_cons i rest s) as (s1 & c1 & s2 & c2 & Hi & Hrest & ->).
  cbn [stateOf]. apply Htrans with s1.
  - specialize (Hstep i s). now rewrite Hi in Hstep.
  - specialize (IH s1). now rewrite Hrest in IH.
Qed.




(** X6: a sequence of runs of [start] and [showAuthNotification] changes
    nothing but the key 'authDisplayCount' of the notification storage and
    the key 'appVersion' of the core storage: all other keys, the session
    flag, the version and the registered controllers are as before. *)
Theorem invocations_touch_two_keys_only
    (invocations : list Invocation) (s : State) :
  let s' := stateOf (invokeAll invocations s) in
  isSessionActive s' = isSessionActive s /\
  extVersion s' = extVersion s /\
  tabControllers s' = tabControllers s /\
  (forall key, key <> "authDisplayCount" ->
     notificationData s' !! key = notificationData s !! key) /\
  (forall key, key <> "appVersion" ->
     coreData s' !! key = coreData s !! key).
Proof.
  cbn zeta. revert invocations s.
  apply (invokeAll_preserves (fun s s' =>
    isSessionActive s' = isSessionActive s /\
    extVersion s' = extVersion s /\
    tabControllers s' = tabControllers s /\
    (forall key, key <> "authDisplayCount" ->
       notificationData s' !! key = notificationData s !! key) /\
    (forall key, key <> "appVersion" ->
       coreData s' !! key = coreData s !! key))).
  - intros s. repeat split.
  - intros a b c (A1 & A2 & A3 & A4 & A5) (B1 & B2 & B3 & B4 & B5).
    repeat split; try congruence.
    + intros key Hk. now rewrite B4, A4.
    + intros key Hk. now rewrite B5, A5.
  - intros [env|env] s; cbn [invoke].
    + destruct (start_keeps env s) as (_ & Hc & Hv & Ha & Ht).
      repeat split; try assumption.
      intros key Hk. rewrite start_outcome. cbn [stateOf].
      set (s1 := withCoreData _ s).
      destruct (Nat.eqb _ 0); [|reflexivity].
      destruct (showAuthNotification_keeps env s1) as (_ & _ & _ & _ & Hn).
      now rewrite Hn.
    + destruct (showAuthNotification_keeps env s) as (Ha & Hv & Hc & Ht & Hn).
      repeat split; try assumption. intros key _. now rewrite Hc.
Qed.

Lemma invocations_touch_two_keys_only_witness :
  "shownHints" <> "authDisplayCount" /\
  notificationData
    (stateOf (invokeAll [InvokeStart sampleEnv;
                         InvokeShowAuthNotification sampleEnv] sampleState))
    !! "shownHints"
  = notificationData sampleState !! "shownHints".
Proof.
  assert (Hne : "shownHints" <> "authDisplayCount") by discriminate.
  destruct (invocations_touch_two_keys_only
              [InvokeStart sampleEnv; InvokeShowAuthNotification sampleEnv]
              sampleState) as (_ & _ & _ & Hn & _).
  split; [exact Hne|]. exact (Hn "shownHints" Hne).
Defined.

(** X7: once the stored counter has reached 3, no sequence of runs displays
    the notification, opens a tab, or writes the notification storage. *)
Theorem saturated_counter_silences_the_notification
    (invocations : list Invocation) (s : State) :
  authNotificationDisplayCount <= authDisplayCountOf (notificationData s) ->
  let o := invokeAll invocations s in
  count isAuthDisplay (callsOf o) = 0%nat /\
  count isTabCreation (callsOf o) = 0%nat /\
  notificationData (stateOf o) = notificationData s.
Proof.
  intros Hsat. cbn zeta. revert s Hsat.
  assert (Hshow : forall env s,
            authNotificationDisplayCount <= authDisplayCountOf (notificationData s) ->
            showAuthNotification env s = Returned tt s []).
  { intros env s H. rewrite showAuthNotification_run.
    destruct (Z.ltb_spec (authDisplayCountOf (notificationData s))
                authNotificationDisplayCount); [lia|reflexivity]. }
  induction invocations as [|i rest IH]; intros s Hsat; [repeat split|].
  destruct (invokeAll_cons i rest s) as (s1 & c1 & s2 & c2 & Hi & Hrest & ->).
  cbn [callsOf stateOf]. rewrite !count_app.
  assert (Hstep : count isAuthDisplay c1 = 0%nat /\
                  count isTabCreation c1 = 0%nat /\
                  notificationData s1 = notificationData s).
  { destruct i as [env|env]; cbn [invoke] in Hi.
    - rewrite start_outcome in Hi.
      rewrite (Hshow env (withCoreData _ s) Hsat) in Hi.
      injection Hi as <- <-.
      destruct (Nat.eqb _ 0); repeat split.
    - rewrite (Hshow env s Hsat) in Hi. injection Hi as <- <-. repeat split. }
  destruct Hstep as (Hd & Ht & Hn).
  assert (Hsat1 : authNotificationDisplayCount
                  <= authDisplayCountOf (notificationData s1))
    by now rewrite Hn.
  destruct (IH s1 Hsat1) as (IHd & IHt & IHn).
  rewrite Hrest in IHd, IHt, IHn. cbn [callsOf stateOf] in IHd, IHt, IHn.
  rewrite Hd, Ht, IHd, IHt, IHn, Hn. repeat split.
Qed.

Lemma saturated_counter_silences_the_notification_witness :
  authNotificationDisplayCount
    <= authDisplayCountOf
         (notificationData
            (withNotificationData {[ "authDisplayCount" := 3 ]} sampleState)) /\
  count isAuthDisplay
    (callsOf (invokeAll [InvokeStart sampleEnv; InvokeShowAuthNotification sampleEnv]
                (withNotificationData {[ "authDisplayCount" := 3 ]} sampleState)))
  = 0%nat.
Proof.
  assert (H : authNotificationDisplayCount
              <= authDisplayCountOf
                   (notificationData
                      (withNotificationData {[ "authDisplayCount" := 3 ]}
                         sampleState)))
    by (vm_compute; discriminate).
  split; [exact H|].
  apply (saturated_counter_silences_the_notification _ _ H).
Defined.

(** X8: a run of [showAuthNotification] on a stored counter that is missing,
    0, 1 or 2, in which the storage calls resolve, leaves the user one way to
    the accounts page and stores the incremented counter in both cases:
    where notifications are available, no tab is opened and a click on the
    notification opens the accounts page; where they are not, the accounts
    page is opened in a tab right away. *)
Theorem allowed_auth_notification_leads_to_accounts (env : Env) (s : State) :
  0 <= authDisplayCountOf (notificationData s) ->
  authDisplayCountOf (notificationData s) < authNotificationDisplayCount ->
  let o := showAuthNotification env s in
  stateOf o = bumped s /\
  (forall c cb, In c (callsOf o) -> callbackOf c = Some cb ->
     click cb = [browser_tabs_create (accountsUrl env)]) /\
  List.filter isTabCreation (callsOf o) =
    (if notificationsAvailable env then []
     else [browser_tabs_create (accountsUrl env)]).
Proof.
  intros _ Hlt. cbn zeta. rewrite showAuthNotification_run.
  apply Z.ltb_lt in Hlt. rewrite Hlt.
  cbn [raised stateOf callsOf]. repeat split.
  - intros c cb Hin Hcb.
    destruct (notificationsAvailable env); cbn in Hin;
      repeat (destruct Hin as [<-|Hin]; [cbn in Hcb; try discriminate|]);
      try contradiction; injection Hcb as <-; reflexivity.
  - now destruct (notificationsAvailable env).
Qed.

Lemma allowed_auth_notification_leads_to_accounts_witness :
  0 <= authDisplayCountOf (notificationData sampleState) /\
  authDisplayCountOf (notificationData sampleState)
    < authNotificationDisplayCount /\
  stateOf (showAuthNotification sampleEnv sampleState) = bumped sampleState.
Proof.
  assert (H0 : 0 <= authDisplayCountOf (notificationData sampleState))
    by (vm_compute; discriminate).
  assert (H : authDisplayCountOf (notificationData sampleState)
              < authNotificationDisplayCount)
    by (vm_compute; reflexivity).
  split; [exact H0|]. split; [exact H|].
  apply (allowed_auth_notification_leads_to_accounts sampleEnv sampleState H0 H).
Defined.

(** ** Connector activations *)

Lemma onConnectorActivated_run (c : ConnectorEntry) (s : State) :
  onConnectorActivated c s =
  Returned tt (withSessionActive s)
    (GA_event "core" "inject" (label c)
     :: if isSessionActive s then []
        else [GA_pageview ("/background-injected?version=" +:+ extVersion s)]).
Proof.
  unfold onConnectorActivated, bind at 1, call.
  now rewrite setSessionActive_run.
Qed.

Lemma activateAll_active (connectors : list ConnectorEntry) (s : State) :
  isSessionActive s = true ->
  activateAll connectors s =
  Returned tt s (map (fun c => GA_event "core" "inject" (label c)) connectors).
Proof.
  intros H. induction connectors as [|c rest IH]; [reflexivity|].
  cbn [activateAll map]. unfold bind at 1.
  rewrite onConnectorActivated_run, H, withSessionActive_fixed by exact H.
  now rewrite IH.
Qed.

Lemma analyticsEvents_injects (connectors : list ConnectorEntry) :
  analyticsEvents (map (fun c => GA_event "core" "inject" (label c)) connectors)
  = map (fun c => ("core", "inject", label c)) connectors.
Proof. induction connectors as [|c rest IH]; cbn; now rewrite ?IH. Qed.

Lemma pageviews_injects (connectors : list ConnectorEntry) :
  pageviews (map (fun c => GA_event "core" "inject" (label c)) connectors) = [].
Proof. induction connectors as [|c rest IH]; cbn; now rewrite ?IH. Qed.

(** X9: however many connectors get activated in a session, one 'inject'
    analytics event is sent per activation, in order and with the label of
    each connector, while the 'background-injected' page view is sent at
    most once: by the first activation, and only if the session was not
    active yet.  After any activation the session is active. *)
Theorem activations_send_one_session_pageview
    (first : ConnectorEntry) (others : list ConnectorEntry) (s : State) :
  let o := activateAll (first :: others) s in
  raised o = false /\
  stateOf o = withSessionActive s /\
  analyticsEvents (callsOf o) =
    map (fun c => ("core", "inject", label c)) (first :: others) /\
  pageviews (callsOf o) =
    (if isSessionActive s then []
     else ["/background-injected?version=" +:+ extVersion s]).
Proof.
  cbn zeta.
  assert (Hrun : activateAll (first :: others) s =
    Returned tt (withSessionActive s)
      ((GA_event "core" "inject" (label first)
        :: if isSessionActive s then []
           else [GA_pageview ("/background-injected?version=" +:+ extVersion s)])
       ++ map (fun c => GA_event "core" "inject" (label c)) others)).
  { cbn [activateAll]. unfold bind at 1.
    rewrite onConnectorActivated_run.
    now rewrite (activateAll_active others (withSessionActive s)). }
  rewrite Hrun. cbn [raised stateOf callsOf]. repeat split.
  - destruct (isSessionActive s); cbn [app analyticsEvents];
      now rewrite analyticsEvents_injects.
  - destruct (isSessionActive s); cbn [app pageviews];
      now rewrite pageviews_injects.
Qed.

(** ** More on [processControllerEvent] *)

(** X10: [processControllerEvent] never changes the state of the extension,
    whatever the event; it throws in exactly one situation, a
    [SongNowPlaying] event (not shadowed by [ControllerReset]) from a
    controller without a current song, and then nothing has been called. *)
Theorem processControllerEvent_throws_only_without_song
    (CR NP SS SU : Z) (ctrl : Controller) (event : Z) (s : State) :
  let o := processControllerEvent CR NP SS SU ctrl event s in
  stateOf o = s /\
  (raised o = true <->
   event <> CR /\ event = NP /\ getCurrentSong ctrl = None) /\
  (raised o = true -> o = Thrown TypeError s []).
Proof.
  cbn zeta. unfold processControllerEvent.
  destruct (Z.eqb_spec event CR) as [Hcr|Hcr].
  - destruct (getCurrentSong ctrl); cbn; repeat split;
      try discriminate; intros (H & _); contradiction.
  - destruct (Z.eqb_spec event NP) as [Hnp|Hnp].
    + destruct (getCurrentSong ctrl) as [song|].
      * destruct (isReplaying (flags song)); cbn; repeat split;
          try discriminate; intros (_ & _ & H); discriminate.
      * cbn. repeat split; assumption.
    + destruct (event =? SS); [|destruct (event =? SU)]; cbn; repeat split;
        try discriminate; intros (_ & H & _); contradiction.
Qed.

Lemma processControllerEvent_throws_only_without_song_witness :
  processControllerEvent 0 1 2 3
    {| tabId := 7; currentSong := None;
       connector := {| label := "Google Play Music" |}; lifecycle := Idle |}
    1 sampleState
  = Thrown TypeError sampleState [].
Proof.
  apply (processControllerEvent_throws_only_without_song 0 1 2 3
           {| tabId := 7; currentSong := None;
              connector := {| label := "Google Play Music" |};
              lifecycle := Idle |} 1 sampleState).
  reflexivity.
Defined.

(** X11: one controller event leads to at most one call in total to the
    notifications and the analytics modules: never two notifications, never
    a notification together with an analytics event. *)
Theorem processControllerEvent_at_most_one_report
    (CR NP SS SU : Z) (ctrl : Controller) (event : Z) (s : State) :
  let calls := callsOf (processControllerEvent CR NP SS SU ctrl event s) in
  (count isNotification calls + count isAnalytics calls <= 1)%nat.
Proof.
  cbn zeta. unfold processControllerEvent.
  destruct (event =? CR).
  - destruct (getCurrentSong ctrl); cbn; lia.
  - destruct (event =? NP).
    + destruct (getCurrentSong ctrl) as [song|]; cbn; [|lia].
      destruct (isReplaying (flags song)); cbn; lia.
    + destruct (event =? SS); [|destruct (event =? SU)]; cbn; lia.
Qed.

(** X12: whatever the event, every click handler that
    [processControllerEvent] hands to the notifications module opens the
    tab of the controller that emitted the event, and nothing else. *)
Theorem processControllerEvent_clicks_open_the_tab
    (CR NP SS SU : Z) (ctrl : Controller) (event : Z) (s : State)
    (c : Call) (cb : Callback) :
  In c (callsOf (processControllerEvent CR NP SS SU ctrl event s)) ->
  callbackOf c = Some cb ->
  click cb = [openTab (tabId ctrl)].
Proof.
  unfold processControllerEvent.
  assert (Hall : forall calls : list Call,
            Forall (fun c' => forall cb', callbackOf c' = Some cb' ->
                                click cb' = [openTab (tabId ctrl)]) calls ->
            In c calls -> callbackOf c = Some cb ->
            click cb = [openTab (tabId ctrl)]).
  { intros calls Hf Hin. rewrite Forall_forall in Hf.
    apply Hf. now apply list_elem_of_In. }
  assert (Hopen : forall cb', Some (OpenTabOf ctrl) = Some cb' ->
                    click cb' = [openTab (tabId ctrl)])
    by (intros cb' [= <-]; reflexivity).
  apply Hall.
  destruct (event =? CR).
  - destruct (getCurrentSong ctrl); cbn; repeat constructor; discriminate.
  - destruct (event =? NP).
    + destruct (getCurrentSong ctrl) as [song|]; cbn; [|constructor].
      destruct (isReplaying (flags song)); cbn; repeat constructor.
      exact Hopen.
    + destruct (event =? SS); [|destruct (event =? SU)]; cbn;
        repeat constructor; try discriminate; exact Hopen.
Qed.

Lemma processControllerEvent_clicks_open_the_tab_witness :
  In (Notifications_showNowPlaying sampleSong (OpenTabOf sampleController))
     (callsOf (processControllerEvent 0 1 2 3 sampleController 1 sampleState)) /\
  callbackOf (Notifications_showNowPlaying sampleSong (OpenTabOf sampleController))
    = Some (OpenTabOf sampleController) /\
  click (OpenTabOf sampleController) = [openTab 7].
Proof.
  assert (H : In (Notifications_showNowPlaying sampleSong (OpenTabOf sampleController))
                (callsOf (processControllerEvent 0 1 2 3 sampleController 1
                            sampleState)))
    by (left; reflexivity).
  split; [exact H|]. split; [reflexivity|].
  apply (processControllerEvent_clicks_open_the_tab 0 1 2 3 sampleController 1
           sampleState _ _ H eq_refl).
Defined.

(** * The Google Play connector: track art *)

Section TrackArt.

Import GooglePlayArt.

Lemma stripPrefix_Some (p s rest : string) :
  stripPrefix p s = Some rest <-> s = p +:+ rest.
Proof.
  revert s. induction p as [|a p IH]; intros s; cbn.
  - split; [intros [= ->]|intros ->]; reflexivity.
  - destruct s as [|b s]; [split; discriminate|].
    destruct (Ascii.eqb_spec a b) as [->|Hab].
    + rewrite IH. split; [intros ->|intros [= ->]]; reflexivity.
    + split; [discriminate|]. intros [= Hb _]. now subst.
Qed.

Lemma stripPrefix_app (p rest : string) : stripPrefix p (p +:+ rest) = Some rest.
Proof. now apply stripPrefix_Some. Qed.

Lemma string_app_nil (s : string) : "" +:+ s = s.
Proof. reflexivity. Qed.

Lemma string_app_cons (c : Ascii.ascii) (a b : string) :
  String c a +:+ b = String c (a +:+ b).
Proof. reflexivity. Qed.

Lemma string_length_app (a b : string) :
  String.length (a +:+ b) = (String.length a + String.length b)%nat.
Proof.
  induction a as [|c a IH]; [reflexivity|].
  rewrite string_app_cons. cbn [String.length]. now rewrite IH.
Qed.

(** A string that does not contain the pattern is returned as it is. *)
Lemma replace_absent (pattern replacement s : string) :
  (forall pre post, s <> pre +:+ pattern +:+ post) ->
  replace pattern replacement s = s.
Proof.
  induction s as [|c s IH]; intros Habs.
  - cbn [replace]. destruct (stripPrefix pattern "") as [rest|] eqn:E; [|reflexivity].
    apply stripPrefix_Some in E. exfalso. now apply (Habs "" rest).
  - cbn [replace]. destruct (stripPrefix pattern (String c s)) as [rest|] eqn:E.
    + apply stripPrefix_Some in E. exfalso. now apply (Habs "" rest).
    + f_equal. apply IH. intros pre post ->.
      now apply (Habs (String c pre) post).
Qed.

(** Removing the pattern shortens a string that contains it by the length
    of the pattern: one occurrence goes, not more. *)
Lemma replace_present_length (pattern pre post : string) :
  (String.length (replace pattern "" (pre +:+ pattern +:+ post))
   + String.length pattern)%nat
  = String.length (pre +:+ pattern +:+ post).
Proof.
  assert (Hhead : forall s rest,
            stripPrefix pattern s = Some rest ->
            (String.length (replace pattern "" s) + String.length pattern)%nat
            = String.length s).
  { intros s rest E.
    assert (Hr : replace pattern "" s = rest)
      by (destruct s; cbn [replace]; now rewrite E).
    rewrite Hr. apply stripPrefix_Some in E. rewrite E, string_length_app. lia. }
  induction pre as [|c pre IH].
  - rewrite string_app_nil. apply (Hhead _ post), stripPrefix_app.
  - rewrite string_app_cons.
    destruct (stripPrefix pattern (String c (pre +:+ pattern +:+ post)))
      as [rest|] eqn:E; [now apply (Hhead _ rest)|].
    cbn [replace]. rewrite E. cbn [String.length]. rewrite <- IH. lia.
Qed.

(** With no '=' before it, the first occurrence of the size suffix is the
    one that is cut out. *)
Lemma replace_sizeSuffix (pre post : string) :
  mentions equalsSign pre = false ->
  replace sizeSuffix "" (pre +:+ sizeSuffix +:+ post) = pre +:+ post.
Proof.
  induction pre as [|c pre IH]; intros Hno.
  - rewrite !string_app_nil.
    assert (E : stripPrefix sizeSuffix (sizeSuffix +:+ post) = Some post)
      by apply stripPrefix_app.
    destruct (sizeSuffix +:+ post); cbn [replace]; now rewrite E.
  - cbn [mentions] in Hno. apply orb_false_iff in Hno as [Hc Hpre].
    unfold equalsSign in Hc. rewrite !string_app_cons.
    assert (E : stripPrefix sizeSuffix
                  (String c (pre +:+ sizeSuffix +:+ post)) = None)
      by (unfold sizeSuffix at 1; cbn [stripPrefix]; now rewrite Hc).
    cbn [replace]. rewrite E. f_equal. now apply IH.
Qed.

End TrackArt.

(** X13: [getTrackArt] gives [null] exactly when the image has no [src]
    attribute or an empty one. *)
Theorem getTrackArt_null_iff_no_src (src : option string) :
  GooglePlayArt.getTrackArt src = None <-> src = None \/ src = Some "".
Proof.
  unfold GooglePlayArt.getTrackArt.
  destruct src as [[|c url]|]; cbn; split; intros H; try discriminate; auto;
    destruct H as [H|H]; discriminate.
Qed.

(** X14: a non-empty art URL that does not contain '=s90-c-e100' is returned
    unchanged. *)
Theorem getTrackArt_keeps_other_urls (url : string) :
  url <> "" ->
  (forall pre post, url <> pre +:+ "=s90-c-e100" +:+ post) ->
  GooglePlayArt.getTrackArt (Some url) = Some url.
Proof.
  intros Hne Habs. unfold GooglePlayArt.getTrackArt.
  destruct url as [|c url]; [congruence|]. cbn [GooglePlayArt.truthy].
  f_equal. now apply replace_absent.
Qed.

Lemma getTrackArt_keeps_other_urls_witness :
  "a=b" <> "" /\
  (forall pre post, "a=b" <> pre +:+ "=s90-c-e100" +:+ post) /\
  GooglePlayArt.getTrackArt (Some "a=b") = Some "a=b".
Proof.
  assert (Hne : "a=b" <> "") by discriminate.
  assert (Habs : forall pre post, "a=b" <> pre +:+ "=s90-c-e100" +:+ post).
  { intros pre post H. apply (f_equal String.length) in H.
    rewrite !string_length_app in H. cbn in H. lia. }
  split; [exact Hne|]. split; [exact Habs|].
  apply (getTrackArt_keeps_other_urls "a=b" Hne Habs).
Defined.

(** X15: for an art URL made of a part without '=', the size suffix
    '=s90-c-e100' and anything after it, [getTrackArt] returns the URL with
    that suffix cut out and the rest in place. *)
Theorem getTrackArt_cuts_the_size_suffix (pre post : string) :
  GooglePlayArt.mentions GooglePlayArt.equalsSign pre = false ->
  GooglePlayArt.getTrackArt (Some (pre +:+ "=s90-c-e100" +:+ post))
  = Some (pre +:+ post).
Proof.
  intros Hno. unfold GooglePlayArt.getTrackArt.
  assert (Ht : GooglePlayArt.truthy (pre +:+ "=s90-c-e100" +:+ post) = true)
    by now destruct pre.
  rewrite Ht. f_equal. now apply replace_sizeSuffix.
Qed.

Lemma getTrackArt_cuts_the_size_suffix_witness :
  GooglePlayArt.mentions GooglePlayArt.equalsSign "https://lh3.googleusercontent.com/abc" = false /\
  GooglePlayArt.getTrackArt
    (Some ("https://lh3.googleusercontent.com/abc" +:+ "=s90-c-e100" +:+ ""))
  = Some ("https://lh3.googleusercontent.com/abc" +:+ "").
Proof.
  assert (H : GooglePlayArt.mentions GooglePlayArt.equalsSign "https://lh3.googleusercontent.com/abc"
              = false) by reflexivity.
  split; [exact H|].
  apply (getTrackArt_cuts_the_size_suffix _ "" H).
Defined.

(** X16: an art URL that contains '=s90-c-e100', wherever and however often,
    comes back exactly 11 characters shorter: one occurrence is removed, any
    further one stays. *)
Theorem getTrackArt_removes_one_occurrence (pre post : string) :
  exists art,
    GooglePlayArt.getTrackArt (Some (pre +:+ "=s90-c-e100" +:+ post)) = Some art /\
    (String.length art + 11)%nat
    = String.length (pre +:+ "=s90-c-e100" +:+ post).
Proof.
  unfold GooglePlayArt.getTrackArt.
  assert (Ht : GooglePlayArt.truthy (pre +:+ "=s90-c-e100" +:+ post) = true)
    by now destruct pre.
  rewrite Ht. eexists. split; [reflexivity|].
  apply (replace_present_length GooglePlayArt.sizeSuffix pre post).
Qed.

(** * Signing in to a scrobbler *)

(** X17: [authenticateScrobbler] binds the scrobbler exactly when its auth
    URL could be fetched, and then opens that URL, after the binding, as the
    only tab; when the fetch fails, nothing is bound and no tab is opened:
    the sign-in error is shown instead, and a click on it opens the status
    page of the scrobbler if it has a non-empty one and does nothing
    otherwise. *)
Theorem authenticateScrobbler_binds_iff_auth_url (scrobbler : Accounts.Scrobbler) :
  let calls := Accounts.authenticateScrobbler scrobbler in
  (existsb Accounts.isBinding calls = true <->
   Accounts.getAuthUrl scrobbler <> None) /\
  (existsb Accounts.isSignInError calls = true <->
   Accounts.getAuthUrl scrobbler = None) /\
  List.filter (fun c => Accounts.isBinding c || Accounts.isTab c) calls =
    match Accounts.getAuthUrl scrobbler with
    | Some authUrl => [Accounts.ScrobbleService_bindScrobbler scrobbler;
                       Accounts.browser_tabs_create authUrl]
    | None => []
    end /\
  (forall sc onClick,
     In (Accounts.Notifications_showSignInError sc onClick) calls ->
     sc = scrobbler /\
     Accounts.click onClick =
       match Accounts.getStatusUrl scrobbler with
       | Some (String c rest) => [Accounts.browser_tabs_create (String c rest)]
       | _ => []
       end).
Proof.
  cbn zeta. unfold Accounts.authenticateScrobbler.
  destruct (Accounts.getAuthUrl scrobbler) as [authUrl|]; cbn;
    (split; [split; congruence || discriminate|]);
    (split; [split; congruence || discriminate|]);
    (split; [reflexivity|]);
    intros sc onClick [H|[H|[H|[]]]]; try discriminate.
  injection H as <- <-. split; [reflexivity|]. cbn.
  destruct (Accounts.getStatusUrl scrobbler) as [[|c rest]|]; reflexivity.
Qed.

Lemma authenticateScrobbler_binds_iff_auth_url_witness :
  In (Accounts.Notifications_showSignInError
        {| Accounts.getLabel := "Libre.fm"; Accounts.getAuthUrl := None;
           Accounts.getStatusUrl := Some "" |}
        (Accounts.OpenStatusOf
           {| Accounts.getLabel := "Libre.fm"; Accounts.getAuthUrl := None;
              Accounts.getStatusUrl := Some "" |}))
     (Accounts.authenticateScrobbler
        {| Accounts.getLabel := "Libre.fm"; Accounts.getAuthUrl := None;
           Accounts.getStatusUrl := Some "" |}) /\
  Accounts.click
    (Accounts.OpenStatusOf
       {| Accounts.getLabel := "Libre.fm"; Accounts.getAuthUrl := None;
          Accounts.getStatusUrl := Some "" |}) = [].
Proof.
  assert (H : In (Accounts.Notifications_showSignInError
        {| Accounts.getLabel := "Libre.fm"; Accounts.getAuthUrl := None;
           Accounts.getStatusUrl := Some "" |}
        (Accounts.OpenStatusOf
           {| Accounts.getLabel := "Libre.fm"; Accounts.getAuthUrl := None;
              Accounts.getStatusUrl := Some "" |}))
     (Accounts.authenticateScrobbler
        {| Accounts.getLabel := "Libre.fm"; Accounts.getAuthUrl := None;
           Accounts.getStatusUrl := Some "" |}))
    by (right; right; left; reflexivity).
  split; [exact H|].
  destruct (authenticateScrobbler_binds_iff_auth_url
              {| Accounts.getLabel := "Libre.fm"; Accounts.getAuthUrl := None;
                 Accounts.getStatusUrl := Some "" |}) as (_ & _ & _ & Hc).
  exact (proj2 (Hc _ _ H)).
Defined.
